(** * resetti: the CPU-affinity shim ([src/affinity/affinity.c])

    A shallow embedding of the three C functions [get_proc_affinity],
    [get_proc_count] and [set_proc_affinity], and the properties of the
    specification that concern them.

    Conventions of the embedding.
    - C integers are mathematical integers ([Z]); every conversion between
      integer types that the C code performs is written out ([to_uint64],
      [to_pid_t]).
    - An operation to which the C standard gives no meaning (signed
      overflow, a shift by at least the width of the promoted operand)
      makes the whole call [Undefined].
    - The local [res] of [get_proc_affinity] is declared without an
      initialiser.  Its content when the loop starts is an extra argument
      [res0] of the embedded function: whatever the stack slot held.
    - The operating system is an interface ([Kernel]): a type of host
      states and the three calls the shim makes. *)

From Equations Require Import Equations.
From Stdlib Require Import ZArith Bool List Lia.
Import ListNotations.

Local Open Scope Z_scope.

(** ** Integer types *)

Definition INT_MAX : Z := 2 ^ 31 - 1.
Definition LONG_MAX : Z := 2 ^ 63 - 1.

(** Conversion to [uint64_t] (C11 6.3.1.3p2): reduction modulo 2^64. *)
Definition to_uint64 (z : Z) : Z := z mod 2 ^ 64.

(** Conversion of the [uint64_t pid] argument to [pid_t], a 32-bit signed
    integer.  Out of range values are implementation-defined (C11
    6.3.1.3p3); GCC and Clang reduce modulo 2^32. *)
Definition to_pid_t (pid : Z) : Z := (pid + 2 ^ 31) mod 2 ^ 32 - 2 ^ 31.

(** ** Outcome of a C computation *)

Inductive outcome (A : Type) : Type :=
| Done (a : A)
| Undefined.

Arguments Done {A} a.
Arguments Undefined {A}.

Definition bind {A B : Type} (m : outcome A) (k : A -> outcome B) : outcome B :=
  match m with
  | Done a => k a
  | Undefined => Undefined
  end.

Notation "x <- m ;; k" := (bind m (fun x => k))
  (at level 61, m at next level, right associativity).

(** [a << i] on operands of type [int] (C11 6.5.7): undefined when the
    shift count is negative or at least 32, when [a] is negative, and when
    [a * 2^i] is not representable in [int]. *)
Definition shl_int (a i : Z) : outcome Z :=
  if (i <? 0) || (32 <=? i) then Undefined
  else if a <? 0 then Undefined
  else if INT_MAX <? a * 2 ^ i then Undefined
  else Done (Z.shiftl a i).

(** ** [cpu_set_t] and the macros of <sched.h>

    glibc's [cpu_set_t] is a bit vector of [CPU_SETSIZE] = 1024 bits.  The
    macros convert their cpu argument to [size_t] and do nothing ([CPU_SET])
    or answer 0 ([CPU_ISSET]) when it is not below [CPU_SETSIZE]. *)

Definition CPU_SETSIZE : Z := 1024.

Definition cpu_set_t : Type := Z.

Definition cpu_in_range (cpu : Z) : bool := (0 <=? cpu) && (cpu <? CPU_SETSIZE).

Definition CPU_ZERO : cpu_set_t := 0.

Definition CPU_SET (cpu : Z) (set : cpu_set_t) : cpu_set_t :=
  if cpu_in_range cpu then Z.lor set (Z.shiftl 1 cpu) else set.

Definition CPU_ISSET (cpu : Z) (set : cpu_set_t) : bool :=
  cpu_in_range cpu && Z.testbit set cpu.

(** ** The operating system *)

Class Kernel : Type := {
  (** state of the host: processes, their affinities, online processors *)
  world : Type;
  (** [sysconf(_SC_NPROCESSORS_ONLN)], a [long]; -1 on failure *)
  sysconf_NPROCESSORS_ONLN : world -> Z;
  (** [sched_getaffinity(pid, sizeof(cpu_set_t), &cpu_set)]: the [int] it
      returns and the content of the buffer after the call *)
  sched_getaffinity : world -> Z -> Z * cpu_set_t;
  (** [sched_setaffinity(pid, sizeof(cpu_set_t), &cpu_set)]: the [int] it
      returns and the host state after the call *)
  sched_setaffinity : world -> Z -> cpu_set_t -> Z * world
}.

(** ** C [for] loop over an [int] counter

    [for (int i = i0; cond(i); i++) s = body(i, s);] started in state [s].
    The counter is an [int]: incrementing [INT_MAX] is undefined. *)

Definition int_lt_INT_MAX_dec (i : Z) : {i < INT_MAX} + {~ i < INT_MAX} :=
  Z_lt_dec i INT_MAX.

#[local] Opaque INT_MAX.

Equations? for_int {S : Type} (cond : Z -> bool) (body : Z -> S -> outcome S)
    (i : Z) (s : S) : outcome S by wf (Z.to_nat (INT_MAX + 1 - i)) lt :=
  for_int cond body i s with cond i := {
    | false := Done s
    | true with body i s := {
        | Undefined := Undefined
        | Done s' with int_lt_INT_MAX_dec i := {
            | left _ := for_int cond body (i + 1) s'
            | right _ := Undefined } } }.
Proof. lia. Qed.

#[local] Transparent INT_MAX.

Section Shim.

Context {K : Kernel}.

(** [uint64_t get_proc_count()]: the [long] that [sysconf] returns,
    converted to the return type. *)
Definition get_proc_count (w : world) : Z :=
  to_uint64 (sysconf_NPROCESSORS_ONLN w).

(** The loop test [i < get_proc_count()]: [i] is converted to
    [uint64_t] for the comparison; the count is queried at every test. *)
Definition below_proc_count (w : world) (i : Z) : bool :=
  to_uint64 i <? get_proc_count w.

(** Body of the loop of [get_proc_affinity]:
    [if (CPU_ISSET(i, &cpu_set)) res |= 1 << i;] *)
Definition get_proc_affinity_body (cpu_set : cpu_set_t) (i res : Z) : outcome Z :=
  if CPU_ISSET i cpu_set then
    bit <- shl_int 1 i ;; Done (Z.lor res (to_uint64 bit))
  else Done res.

(** [uint64_t get_proc_affinity(uint64_t pid)]; [res0] is the content of
    the uninitialised local [res]. *)
Definition get_proc_affinity (w : world) (pid : Z) (res0 : Z) : outcome Z :=
  let '(result, cpu_set) := sched_getaffinity w (to_pid_t pid) in
  if result =? -1 then Done 0
  else for_int (below_proc_count w) (get_proc_affinity_body cpu_set) 0 res0.

(** Body of the loop of [set_proc_affinity]:
    [if ((cpus & (1 << i)) != 0) CPU_SET(i, &cpu_set);] *)
Definition set_proc_affinity_body (cpus : Z) (i : Z) (cpu_set : cpu_set_t)
  : outcome cpu_set_t :=
  bit <- shl_int 1 i ;;
  if negb (Z.land cpus (to_uint64 bit) =? 0) then Done (CPU_SET i cpu_set)
  else Done cpu_set.

(** The CPU set that [set_proc_affinity] hands to the kernel. *)
Definition requested_cpu_set (w : world) (cpus : Z) : outcome cpu_set_t :=
  for_int (below_proc_count w) (set_proc_affinity_body cpus) 0 CPU_ZERO.

(** [int set_proc_affinity(uint64_t pid, uint64_t cpus)]: the returned
    [int] and the host state after the call. *)
Definition set_proc_affinity (w : world) (pid cpus : Z) : outcome (Z * world) :=
  cpu_set <- requested_cpu_set w cpus ;;
  Done (sched_setaffinity w (to_pid_t pid) cpu_set).

End Shim.

(** ** A small kernel to run the shim on

    A host with a table of processes; every process has an affinity set.
    [sched_getaffinity] fails on an unknown pid, [sched_setaffinity]
    replaces the set of a known one. *)

Module Host.

Record host : Type := {
  online : Z;
  procs : list (Z * cpu_set_t)
}.

Fixpoint lookup (pid : Z) (t : list (Z * cpu_set_t)) : option cpu_set_t :=
  match t with
  | [] => None
  | (p, s) :: t' => if p =? pid then Some s else lookup pid t'
  end.

Fixpoint update (pid : Z) (s : cpu_set_t) (t : list (Z * cpu_set_t))
  : list (Z * cpu_set_t) :=
  match t with
  | [] => []
  | (p, s') :: t' => if p =? pid then (p, s) :: t' else (p, s') :: update pid s t'
  end.

Definition getaffinity (h : host) (pid : Z) : Z * cpu_set_t :=
  match lookup pid (procs h) with
  | Some s => (0, s)
  | None => (-1, 0)
  end.

Definition setaffinity (h : host) (pid : Z) (s : cpu_set_t) : Z * host :=
  match lookup pid (procs h) with
  | Some _ => (0, {| online := online h; procs := update pid s (procs h) |})
  | None => (-1, h)
  end.

#[global] Instance kernel : Kernel := {|
  world := host;
  sysconf_NPROCESSORS_ONLN := online;
  sched_getaffinity := getaffinity;
  sched_setaffinity := setaffinity
|}.

End Host.

(** ** What the relational properties assume of the kernel *)

(** A successful [sched_setaffinity] is remembered: a later
    [sched_getaffinity] on the same process succeeds and reports every CPU
    of the set that was requested, and the call does not change the number
    of online processors. *)
Definition kernel_keeps_affinity (K : Kernel) : Prop :=
  forall (w w' : world) (p : Z) (s : cpu_set_t),
    sched_setaffinity w p s = (0, w') ->
    sysconf_NPROCESSORS_ONLN w' = sysconf_NPROCESSORS_ONLN w
    /\ fst (sched_getaffinity w' p) = 0
    /\ forall i, CPU_ISSET i s = true ->
                 CPU_ISSET i (snd (sched_getaffinity w' p)) = true.

(** Asking the kernel a second time for the same set changes neither what
    [sched_getaffinity] reports for that process nor the number of online
    processors. *)
Definition kernel_set_idempotent (K : Kernel) : Prop :=
  forall (w : world) (p : Z) (s : cpu_set_t),
    let w1 := snd (sched_setaffinity w p s) in
    let w2 := snd (sched_setaffinity w1 p s) in
    sysconf_NPROCESSORS_ONLN w1 = sysconf_NPROCESSORS_ONLN w
    /\ sched_getaffinity w2 p = sched_getaffinity w1 p.

(** ** Hosts used in the examples *)

(** Four processors; process 7 may run on all of them. *)
Definition quad_host : Host.host :=
  {| Host.online := 4; Host.procs := [(7, 15)] |}.

(** Two processors; process 7 is pinned to CPU 0. *)
Definition dual_host : Host.host :=
  {| Host.online := 2; Host.procs := [(7, 1)] |}.

(** 32 processors; process 7 is pinned to CPU 0. *)
Definition host_32 : Host.host :=
  {| Host.online := 32; Host.procs := [(7, 1)] |}.

(** 64 processors; process 7 is pinned to CPU 32. *)
Definition host_64 : Host.host :=
  {| Host.online := 64; Host.procs := [(7, 2 ^ 32)] |}.

(** A host on which [sysconf] fails. *)
Definition host_no_sysconf : Host.host :=
  {| Host.online := -1; Host.procs := [(7, 1)] |}.

(** 64 processors; process 7 may run on CPUs 0 and 2. *)
Definition host_64_low : Host.host :=
  {| Host.online := 64; Host.procs := [(7, 5)] |}.

(** A stronger reading of "the kernel remembers": after a successful
    [sched_setaffinity], [sched_getaffinity] on the same process succeeds
    and reports exactly the set that was requested, and the number of
    online processors is unchanged. *)
Definition kernel_reports_request (K : Kernel) : Prop :=
  forall (w w' : world) (p : Z) (s : cpu_set_t),
    sched_setaffinity w p s = (0, w') ->
    sysconf_NPROCESSORS_ONLN w' = sysconf_NPROCESSORS_ONLN w
    /\ sched_getaffinity w' p = (0, s).

(** * Properties *)

Lemma Done_inj {A : Type} (a b : A) : Done a = Done b -> a = b.
Proof. intros H. injection H as H. exact H. Qed.

(** ** Integer conversions and bits *)

Lemma to_uint64_small (z : Z) : 0 <= z < 2 ^ 64 -> to_uint64 z = z.
Proof. intros H. unfold to_uint64. apply Z.mod_small. exact H. Qed.

Lemma INT_MAX_eq : INT_MAX = 2147483647.
Proof. reflexivity. Qed.

Lemma to_uint64_int (i : Z) : 0 <= i <= INT_MAX -> to_uint64 i = i.
Proof. rewrite INT_MAX_eq. intros H. apply to_uint64_small. lia. Qed.

Lemma pow2_lt_mono (i j : Z) : 0 <= i < j -> 2 ^ i < 2 ^ j.
Proof. intros H. apply Z.pow_lt_mono_r; lia. Qed.

(** For a shift count below 31 the [int] shift is exact. *)
Lemma shl_int_one_small (i : Z) : 0 <= i < 31 -> shl_int 1 i = Done (2 ^ i).
Proof.
  intros H. unfold shl_int.
  replace ((i <? 0) || (32 <=? i)) with false
    by (symmetry; apply orb_false_iff; split; [apply Z.ltb_ge | apply Z.leb_gt]; lia).
  cbn [Z.ltb Z.compare].
  assert (Hp : 2 ^ i < 2 ^ 31) by (apply pow2_lt_mono; lia).
  replace (INT_MAX <? 1 * 2 ^ i) with false
    by (symmetry; apply Z.ltb_ge; rewrite INT_MAX_eq;
        change (2 ^ 31) with 2147483648 in Hp; lia).
  rewrite Z.shiftl_1_l. reflexivity.
Qed.

(** From 31 on it is not defined: 2^31 is not an [int], and a count of 32
    or more is not allowed at all. *)
Lemma shl_int_one_large (i : Z) : 31 <= i -> shl_int 1 i = Undefined.
Proof.
  intros H. unfold shl_int.
  destruct (Z.leb_spec 32 i) as [H32 | H32].
  - rewrite orb_true_r. reflexivity.
  - assert (i = 31) by lia. subst i. reflexivity.
Qed.

Lemma shl_int_one_done (i bit : Z) :
  shl_int 1 i = Done bit -> 0 <= i < 31 /\ bit = 2 ^ i.
Proof.
  intros H. destruct (Z_lt_ge_dec i 0) as [Hneg | Hpos].
  - unfold shl_int in H.
    replace (i <? 0) with true in H by (symmetry; apply Z.ltb_lt; exact Hneg).
    discriminate.
  - destruct (Z_lt_ge_dec i 31) as [Hlt | Hge].
    + rewrite shl_int_one_small in H by lia. split; [lia | congruence].
    + rewrite shl_int_one_large in H by lia. discriminate.
Qed.

Lemma to_uint64_bit (i : Z) : 0 <= i < 31 -> to_uint64 (2 ^ i) = 2 ^ i.
Proof.
  intros H. apply to_uint64_small. split; [apply Z.pow_nonneg; lia |].
  apply pow2_lt_mono; lia.
Qed.

Lemma testbit_pow2 (i j : Z) : 0 <= i -> Z.testbit (2 ^ i) j = (j =? i).
Proof.
  intros H. destruct (Z.eqb_spec j i) as [-> | Hne].
  - apply Z.pow2_bits_true; exact H.
  - apply Z.pow2_bits_false; congruence.
Qed.

Lemma ltb_succ (k j : Z) : (k <? j + 1) = (k <? j) || (k =? j).
Proof.
  destruct (Z.ltb_spec k (j + 1)), (Z.ltb_spec k j), (Z.eqb_spec k j);
    reflexivity || lia.
Qed.

(** Bits of a word below [j + 1]: those below [j], and bit [j]. *)
Lemma land_ones_succ (x j : Z) :
  0 <= j ->
  Z.land x (Z.ones (j + 1))
  = if Z.testbit x j then Z.lor (Z.land x (Z.ones j)) (2 ^ j)
    else Z.land x (Z.ones j).
Proof.
  intros Hj. apply Z.bits_inj'. intros k Hk.
  rewrite Z.land_spec, Z.testbit_ones_nonneg, ltb_succ by lia.
  destruct (Z.testbit x j) eqn:Hb;
    rewrite ?Z.lor_spec, ?Z.land_spec, ?testbit_pow2, ?Z.testbit_ones_nonneg by lia;
    (destruct (Z.eqb_spec k j) as [-> | Hne];
     [rewrite Hb; destruct (j <? j); reflexivity
     | destruct (Z.testbit x k), (k <? j); reflexivity]).
Qed.

Lemma land_pow2_test (cpus i : Z) :
  0 <= i -> negb (Z.land cpus (2 ^ i) =? 0) = Z.testbit cpus i.
Proof.
  intros H. destruct (Z.testbit cpus i) eqn:Hb.
  - apply negb_true_iff, Z.eqb_neq. intros Hz.
    assert (Ht : Z.testbit (Z.land cpus (2 ^ i)) i = true).
    { rewrite Z.land_spec, Hb, testbit_pow2, Z.eqb_refl by exact H. reflexivity. }
    rewrite Hz, Z.bits_0 in Ht. discriminate.
  - apply negb_false_iff, Z.eqb_eq. apply Z.bits_inj'. intros j Hj.
    rewrite Z.land_spec, Z.bits_0, testbit_pow2 by exact H.
    destruct (Z.eqb_spec j i) as [-> | _].
    + rewrite Hb. reflexivity.
    + apply andb_false_r.
Qed.

Lemma cpu_in_range_small (i : Z) : 0 <= i < 31 -> cpu_in_range i = true.
Proof.
  intros H. unfold cpu_in_range, CPU_SETSIZE.
  apply andb_true_iff. split; [apply Z.leb_le | apply Z.ltb_lt]; lia.
Qed.

(** ** The [for] loop *)

(** One turn of the loop, as the C text reads. *)
Lemma for_int_step {S : Type} (cond : Z -> bool) (body : Z -> S -> outcome S)
    (i : Z) (s : S) :
  for_int cond body i s =
  if cond i then
    match body i s with
    | Undefined => Undefined
    | Done s' => if int_lt_INT_MAX_dec i then for_int cond body (i + 1) s'
                 else Undefined
    end
  else Done s.
Proof.
  rewrite for_int_equation_1.
  destruct (cond i); cbn; [| reflexivity].
  destruct (body i s); cbn; [| reflexivity].
  destruct (int_lt_INT_MAX_dec i); reflexivity.
Qed.

Lemma for_int_exit {S : Type} (cond : Z -> bool) (body : Z -> S -> outcome S)
    (i : Z) (s : S) :
  cond i = false -> for_int cond body i s = Done s.
Proof. intros H. rewrite for_int_step, H. reflexivity. Qed.

Lemma for_int_next {S : Type} (cond : Z -> bool) (body : Z -> S -> outcome S)
    (i : Z) (s s' : S) :
  cond i = true -> body i s = Done s' -> i < INT_MAX ->
  for_int cond body i s = for_int cond body (i + 1) s'.
Proof.
  intros Hc Hb Hi. rewrite for_int_step, Hc, Hb.
  destruct (int_lt_INT_MAX_dec i); [reflexivity | contradiction].
Qed.

(** Running the loop from [i] to [m]: when the test holds and the body is
    defined and keeps the invariant [P] on every index in between, the loop
    started at [i] continues as the loop started at [m]. *)
Lemma for_int_advance {S : Type} (cond : Z -> bool) (body : Z -> S -> outcome S)
    (P : Z -> S -> Prop) (m : Z) :
  m <= INT_MAX ->
  (forall j s, j < m -> P j s ->
     cond j = true /\ exists s', body j s = Done s' /\ P (j + 1) s') ->
  forall (i : Z) (s : S),
    i <= m -> P i s ->
    exists s', P m s' /\ for_int cond body i s = for_int cond body m s'.
Proof.
  intros Hm Hbody i s Hi. remember (Z.to_nat (m - i)) as n eqn:Hn.
  revert i s Hi Hn. induction n as [| n IH]; intros i s Hi Hn HP.
  - assert (i = m) by lia. subst i. exists s. split; [exact HP | reflexivity].
  - assert (Hlt : i < m) by lia.
    destruct (Hbody i s Hlt HP) as [Hc [s1 [Hb HP1]]].
    destruct (IH (i + 1) s1) as [s' [HP' Heq]]; [lia | lia | exact HP1 |].
    exists s'. split; [exact HP' |].
    rewrite (for_int_next cond body i s s1 Hc Hb) by lia. exact Heq.
Qed.

(** A loop whose test holds on every index up to [m] does not end normally
    when the body is undefined at [m], or when [m] is the last [int]. *)
Lemma for_int_no_exit {S : Type} (cond : Z -> bool) (body : Z -> S -> outcome S)
    (i0 m : Z) :
  m <= INT_MAX ->
  (forall j, i0 <= j <= m -> cond j = true) ->
  m = INT_MAX \/ (forall s, body m s = Undefined) ->
  forall (i : Z) (s : S),
    i0 <= i <= m -> for_int cond body i s = Undefined.
Proof.
  intros Hm Hcond Hend i s Hi. remember (Z.to_nat (m - i)) as n eqn:Hn.
  revert i s Hi Hn. induction n as [| n IH]; intros i s Hi Hn.
  - assert (i = m) by lia. subst i.
    rewrite for_int_step, (Hcond m) by lia.
    destruct Hend as [-> | Hb].
    + destruct (body INT_MAX s); [| reflexivity].
      destruct (int_lt_INT_MAX_dec INT_MAX); [lia | reflexivity].
    + rewrite Hb. reflexivity.
  - rewrite for_int_step, (Hcond i) by lia.
    destruct (body i s) as [s' |]; [| reflexivity].
    destruct (int_lt_INT_MAX_dec i); [| reflexivity].
    apply IH; lia.
Qed.

(** What a loop that ends has kept: a property of the state that every
    turn preserves. *)
Lemma for_int_preserves {S : Type} (cond : Z -> bool) (body : Z -> S -> outcome S)
    (P : S -> Prop) :
  (forall j s s', body j s = Done s' -> P s -> P s') ->
  forall (i : Z) (s r : S),
    for_int cond body i s = Done r -> P s -> P r.
Proof.
  intros Hbody i. remember (Z.to_nat (INT_MAX + 1 - i)) as n eqn:Hn.
  revert i Hn. induction n as [| n IH]; intros i Hn s r Hrun HP;
    rewrite for_int_step in Hrun;
    (destruct (cond i); [| injection Hrun as <-; exact HP]);
    (destruct (body i s) as [s' |] eqn:Hb; [| discriminate]);
    (destruct (int_lt_INT_MAX_dec i); [| discriminate]).
  - lia.
  - apply (IH (i + 1)) with (s := s'); [lia | exact Hrun |].
    apply (Hbody i s s' Hb HP).
Qed.

(** ** The two loops of the shim *)

Section ShimProperties.

Context {K : Kernel}.

Lemma get_proc_count_range (w : world) : 0 <= get_proc_count w < 2 ^ 64.
Proof. unfold get_proc_count, to_uint64. apply Z.mod_pos_bound. reflexivity. Qed.

Lemma below_proc_count_true (w : world) (i : Z) :
  0 <= i <= INT_MAX -> i < get_proc_count w -> below_proc_count w i = true.
Proof.
  intros Hi Hlt. unfold below_proc_count. rewrite to_uint64_int by exact Hi.
  apply Z.ltb_lt. exact Hlt.
Qed.

Lemma below_proc_count_false (w : world) (i : Z) :
  0 <= i <= INT_MAX -> get_proc_count w <= i -> below_proc_count w i = false.
Proof.
  intros Hi Hge. unfold below_proc_count. rewrite to_uint64_int by exact Hi.
  apply Z.ltb_ge. exact Hge.
Qed.

(** Both loops copy bits: at index [i] they OR [2^i] into their state
    when bit [i] of a source word [x] is set.  With at most 31 processors
    such a loop ends, and has added to its state the bits of [x] below the
    processor count. *)
Lemma copy_bits_loop (w : world) (body : Z -> Z -> outcome Z) (x s0 : Z) :
  (forall i s, 0 <= i < 31 ->
     body i s = Done (if Z.testbit x i then Z.lor s (2 ^ i) else s)) ->
  get_proc_count w <= 31 ->
  for_int (below_proc_count w) body 0 s0
  = Done (Z.lor s0 (Z.land x (Z.ones (get_proc_count w)))).
Proof.
  intros Hbody Hn. pose proof (get_proc_count_range w) as Hr.
  destruct (for_int_advance (below_proc_count w) body
    (fun i s => 0 <= i /\ s = Z.lor s0 (Z.land x (Z.ones i))) (get_proc_count w))
    with (i := 0) (s := s0) as [r [[_ Hr'] Heq]].
  - rewrite INT_MAX_eq. lia.
  - intros j s Hj [Hj0 Hs]. split.
    + apply below_proc_count_true; [rewrite INT_MAX_eq; lia | exact Hj].
    + rewrite Hbody by lia. eexists. split; [reflexivity |]. split; [lia |].
      subst s. rewrite land_ones_succ by exact Hj0.
      destruct (Z.testbit x j); [symmetry; apply Z.lor_assoc | reflexivity].
  - lia.
  - split; [lia |]. cbn. rewrite Z.land_0_r, Z.lor_0_r. reflexivity.
  - rewrite Heq, for_int_exit.
    + rewrite Hr'. reflexivity.
    + apply below_proc_count_false; [rewrite INT_MAX_eq |]; lia.
Qed.

(** *** The loop of [get_proc_affinity] *)

Lemma get_proc_affinity_body_small (cpu_set : cpu_set_t) (i res : Z) :
  0 <= i < 31 ->
  get_proc_affinity_body cpu_set i res
  = Done (if Z.testbit cpu_set i then Z.lor res (2 ^ i) else res).
Proof.
  intros H. unfold get_proc_affinity_body, CPU_ISSET.
  rewrite cpu_in_range_small by exact H. cbn [andb].
  destruct (Z.testbit cpu_set i); [| reflexivity].
  rewrite shl_int_one_small by exact H. cbn [bind].
  rewrite to_uint64_bit by exact H. reflexivity.
Qed.

(** Whatever the accumulator holds at the start stays in it: the body only
    ever ORs into it. *)
Lemma get_proc_affinity_body_lor (cpu_set : cpu_set_t) (i g res : Z) :
  get_proc_affinity_body cpu_set i (Z.lor g res)
  = (r <- get_proc_affinity_body cpu_set i res ;; Done (Z.lor g r)).
Proof.
  unfold get_proc_affinity_body.
  destruct (CPU_ISSET i cpu_set); [| reflexivity].
  destruct (shl_int 1 i) as [bit |]; [| reflexivity].
  cbn [bind]. rewrite Z.lor_assoc. reflexivity.
Qed.

Lemma get_proc_affinity_loop_lor (cond : Z -> bool) (cpu_set : cpu_set_t) (g : Z) :
  forall (i res : Z),
    for_int cond (get_proc_affinity_body cpu_set) i (Z.lor g res)
    = (r <- for_int cond (get_proc_affinity_body cpu_set) i res ;; Done (Z.lor g r)).
Proof.
  intros i. remember (Z.to_nat (INT_MAX + 1 - i)) as n eqn:Hn.
  revert i Hn. induction n as [| n IH]; intros i Hn res;
    rewrite (for_int_step _ _ i (Z.lor g res)), (for_int_step _ _ i res);
    (destruct (cond i); [| reflexivity]);
    rewrite get_proc_affinity_body_lor;
    (destruct (get_proc_affinity_body cpu_set i res) as [r |]; [| reflexivity]);
    cbn [bind];
    (destruct (int_lt_INT_MAX_dec i); [| reflexivity]).
  - lia.
  - apply IH. lia.
Qed.

(** The loop never sets a bit from 31 on. *)
Lemma get_proc_affinity_body_high (cpu_set : cpu_set_t) (j s s' : Z) :
  get_proc_affinity_body cpu_set j s = Done s' ->
  (forall k, 31 <= k -> Z.testbit s k = false) ->
  forall k, 31 <= k -> Z.testbit s' k = false.
Proof.
  unfold get_proc_affinity_body. intros Hb Hs k Hk.
  destruct (CPU_ISSET j cpu_set).
  - destruct (shl_int 1 j) as [bit |] eqn:Hsh; [| discriminate].
    destruct (shl_int_one_done j bit Hsh) as [Hj ->].
    cbn [bind] in Hb. injection Hb as <-.
    rewrite to_uint64_bit, Z.lor_spec, testbit_pow2, (Hs k Hk) by lia.
    apply Z.eqb_neq. lia.
  - injection Hb as <-. apply Hs, Hk.
Qed.

(** A member of the CPU set at an index from 31 on, below the processor
    count, makes the loop evaluate an undefined shift. *)
Lemma get_proc_affinity_loop_large (w : world) (cpu_set : cpu_set_t)
    (m res0 : Z) :
  31 <= m <= INT_MAX -> m < get_proc_count w -> CPU_ISSET m cpu_set = true ->
  for_int (below_proc_count w) (get_proc_affinity_body cpu_set) 0 res0 = Undefined.
Proof.
  intros Hm Hlt Hin.
  apply (for_int_no_exit _ _ 0 m).
  - lia.
  - intros j Hj. apply below_proc_count_true; lia.
  - right. intros s. unfold get_proc_affinity_body.
    rewrite Hin, shl_int_one_large by lia. reflexivity.
  - lia.
Qed.

(** [get_proc_affinity] reads the outcome of the query, then runs the loop. *)
Lemma get_proc_affinity_failed (w : world) (pid res0 : Z) :
  fst (sched_getaffinity w (to_pid_t pid)) = -1 ->
  get_proc_affinity w pid res0 = Done 0.
Proof.
  unfold get_proc_affinity.
  destruct (sched_getaffinity w (to_pid_t pid)) as [result cpu_set].
  cbn [fst]. intros ->. reflexivity.
Qed.

Lemma get_proc_affinity_queried (w : world) (pid res0 : Z) :
  fst (sched_getaffinity w (to_pid_t pid)) <> -1 ->
  get_proc_affinity w pid res0
  = for_int (below_proc_count w)
      (get_proc_affinity_body (snd (sched_getaffinity w (to_pid_t pid)))) 0 res0.
Proof.
  unfold get_proc_affinity.
  destruct (sched_getaffinity w (to_pid_t pid)) as [result cpu_set].
  cbn [fst snd]. intros Hres.
  destruct (Z.eqb_spec result (-1)); [contradiction | reflexivity].
Qed.

(** With at most 31 processors, a successful query returns the leftover
    content of [res] OR-ed with the members of the reported set below the
    processor count. *)
Lemma get_proc_affinity_small (w : world) (pid res0 : Z) :
  fst (sched_getaffinity w (to_pid_t pid)) <> -1 ->
  get_proc_count w <= 31 ->
  get_proc_affinity w pid res0
  = Done (Z.lor res0 (Z.land (snd (sched_getaffinity w (to_pid_t pid)))
                             (Z.ones (get_proc_count w)))).
Proof.
  intros Hq Hn. rewrite get_proc_affinity_queried by exact Hq.
  apply copy_bits_loop; [| exact Hn].
  intros i s Hi. apply get_proc_affinity_body_small, Hi.
Qed.

(** *** The loop of [set_proc_affinity] *)

Lemma set_proc_affinity_body_small (cpus i : Z) (cpu_set : cpu_set_t) :
  0 <= i < 31 ->
  set_proc_affinity_body cpus i cpu_set
  = Done (if Z.testbit cpus i then Z.lor cpu_set (2 ^ i) else cpu_set).
Proof.
  intros H. unfold set_proc_affinity_body.
  rewrite shl_int_one_small by exact H. cbn [bind].
  rewrite to_uint64_bit by exact H.
  rewrite land_pow2_test by lia.
  unfold CPU_SET. rewrite cpu_in_range_small by exact H.
  rewrite Z.shiftl_1_l. destruct (Z.testbit cpus i); reflexivity.
Qed.

(** With at most 31 processors the set handed to the kernel holds the bits
    of the mask below the processor count. *)
Lemma requested_cpu_set_small (w : world) (cpus : Z) :
  get_proc_count w <= 31 ->
  requested_cpu_set w cpus = Done (Z.land cpus (Z.ones (get_proc_count w))).
Proof.
  intros Hn. unfold requested_cpu_set, CPU_ZERO.
  rewrite (copy_bits_loop w _ cpus 0).
  - rewrite Z.lor_0_l. reflexivity.
  - intros i s Hi. apply set_proc_affinity_body_small, Hi.
  - exact Hn.
Qed.

(** With 32 processors or more the loop reaches [i = 31] and evaluates
    [1 << 31] in [int]. *)
Lemma requested_cpu_set_large (w : world) (cpus : Z) :
  32 <= get_proc_count w -> requested_cpu_set w cpus = Undefined.
Proof.
  intros Hn. unfold requested_cpu_set.
  apply (for_int_no_exit _ _ 0 31).
  - rewrite INT_MAX_eq. lia.
  - intros j Hj. apply below_proc_count_true; [rewrite INT_MAX_eq |]; lia.
  - right. intros s. unfold set_proc_affinity_body.
    rewrite shl_int_one_large by lia. reflexivity.
  - lia.
Qed.

Lemma set_proc_affinity_small (w : world) (pid cpus : Z) :
  get_proc_count w <= 31 ->
  set_proc_affinity w pid cpus
  = Done (sched_setaffinity w (to_pid_t pid)
            (Z.land cpus (Z.ones (get_proc_count w)))).
Proof.
  intros Hn. unfold set_proc_affinity.
  rewrite requested_cpu_set_small by exact Hn. reflexivity.
Qed.

Lemma set_proc_affinity_large (w : world) (pid cpus : Z) :
  32 <= get_proc_count w -> set_proc_affinity w pid cpus = Undefined.
Proof.
  intros Hn. unfold set_proc_affinity.
  rewrite requested_cpu_set_large by exact Hn. reflexivity.
Qed.

(** A call of [set_proc_affinity] that returns had a defined loop, and
    returns what the kernel call returned. *)
Lemma set_proc_affinity_done (w : world) (pid cpus : Z) (out : Z * world) :
  set_proc_affinity w pid cpus = Done out ->
  get_proc_count w <= 31
  /\ sched_setaffinity w (to_pid_t pid)
       (Z.land cpus (Z.ones (get_proc_count w))) = out.
Proof.
  intros H. destruct (Z_le_gt_dec (get_proc_count w) 31) as [Hn | Hn].
  - split; [exact Hn |]. rewrite set_proc_affinity_small in H by exact Hn.
    apply Done_inj in H. exact H.
  - rewrite set_proc_affinity_large in H by lia. discriminate.
Qed.

End ShimProperties.

(** ** The example kernel obeys the two laws *)

Lemma host_lookup_update (pid : Z) (s : cpu_set_t) (t : list (Z * cpu_set_t)) :
  Host.lookup pid (Host.update pid s t)
  = match Host.lookup pid t with Some _ => Some s | None => None end.
Proof.
  induction t as [| [p s'] t IH]; [reflexivity |]. cbn.
  destruct (Z.eqb_spec p pid) as [-> | Hne]; cbn.
  - rewrite Z.eqb_refl. reflexivity.
  - destruct (Z.eqb_spec p pid); [contradiction | exact IH].
Qed.

Lemma host_update_update (pid : Z) (s : cpu_set_t) (t : list (Z * cpu_set_t)) :
  Host.update pid s (Host.update pid s t) = Host.update pid s t.
Proof.
  induction t as [| [p s'] t IH]; [reflexivity |]. cbn.
  destruct (Z.eqb_spec p pid) as [-> | Hne]; cbn.
  - rewrite Z.eqb_refl. reflexivity.
  - destruct (Z.eqb_spec p pid); [contradiction |]. rewrite IH. reflexivity.
Qed.

Lemma host_keeps_affinity : kernel_keeps_affinity Host.kernel.
Proof.
  intros w w' p s. cbn. unfold Host.setaffinity, Host.getaffinity.
  destruct (Host.lookup p (Host.procs w)) as [s0 |] eqn:Hl; [| discriminate].
  intros H. injection H as <-. cbn.
  rewrite host_lookup_update, Hl. cbn. repeat split. trivial.
Qed.

Lemma host_set_idempotent : kernel_set_idempotent Host.kernel.
Proof.
  intros w p s. cbn. unfold Host.setaffinity.
  destruct (Host.lookup p (Host.procs w)) as [s0 |] eqn:Hl; cbn.
  - rewrite host_lookup_update, Hl. cbn. split; [reflexivity |].
    rewrite host_update_update. reflexivity.
  - rewrite Hl. split; reflexivity.
Qed.

(** * The claims of the specification *)

(** ** The processor count *)

(** C8. When the configuration query succeeds, that is when [sysconf]
    reports a number of online processors (at least one, and a [long]),
    [get_proc_count] returns that number, which is at least 1.  The value
    is read from the host at every call: two calls return the same count
    exactly when the host reports the same count at both. *)
Theorem get_proc_count_positive {K : Kernel} (w w' : world) :
  1 <= sysconf_NPROCESSORS_ONLN w <= LONG_MAX ->
  1 <= sysconf_NPROCESSORS_ONLN w' <= LONG_MAX ->
  get_proc_count w = sysconf_NPROCESSORS_ONLN w
  /\ 1 <= get_proc_count w
  /\ (get_proc_count w' = get_proc_count w
      <-> sysconf_NPROCESSORS_ONLN w' = sysconf_NPROCESSORS_ONLN w).
Proof.
  unfold LONG_MAX. intros Hw Hw'.
  assert (E : forall v : world, 1 <= sysconf_NPROCESSORS_ONLN v <= 2 ^ 63 - 1 ->
                get_proc_count v = sysconf_NPROCESSORS_ONLN v).
  { intros v Hv. apply to_uint64_small. lia. }
  rewrite (E w Hw), (E w' Hw'). split; [reflexivity |]. split; [lia |].
  split; intros H; exact H.
Qed.

Lemma get_proc_count_positive_witness :
  1 <= sysconf_NPROCESSORS_ONLN quad_host <= LONG_MAX
  /\ 1 <= sysconf_NPROCESSORS_ONLN dual_host <= LONG_MAX
  /\ get_proc_count quad_host = 4
  /\ 1 <= get_proc_count quad_host
  /\ (get_proc_count dual_host = get_proc_count quad_host
      <-> sysconf_NPROCESSORS_ONLN dual_host = sysconf_NPROCESSORS_ONLN quad_host).
Proof.
  split; [cbn; unfold LONG_MAX; lia |].
  split; [cbn; unfold LONG_MAX; lia |].
  apply (get_proc_count_positive (K := Host.kernel) quad_host dual_host);
    cbn; unfold LONG_MAX; lia.
Defined.

(** C10. When [sysconf] fails and returns -1, [get_proc_count] returns
    2^64 - 1.  Both loops compare their counter with that value: the test
    holds for every non-negative [int], so neither loop ends normally.
    [set_proc_affinity] reaches [1 << 31]; [get_proc_affinity], after a
    successful affinity query, reaches an undefined shift or increments its
    counter past [INT_MAX]. *)
Theorem get_proc_count_failure {K : Kernel} (w : world) :
  sysconf_NPROCESSORS_ONLN w = -1 ->
  get_proc_count w = 2 ^ 64 - 1
  /\ (forall i, 0 <= i <= INT_MAX -> below_proc_count w i = true)
  /\ (forall pid cpus, set_proc_affinity w pid cpus = Undefined)
  /\ (forall pid res0,
        fst (sched_getaffinity w (to_pid_t pid)) <> -1 ->
        get_proc_affinity w pid res0 = Undefined).
Proof.
  intros Hfail.
  assert (Hn : get_proc_count w = 2 ^ 64 - 1).
  { unfold get_proc_count. rewrite Hfail. reflexivity. }
  assert (Hcond : forall i, 0 <= i <= INT_MAX -> below_proc_count w i = true).
  { intros i Hi. apply below_proc_count_true; [exact Hi |].
    rewrite Hn. rewrite INT_MAX_eq in Hi. lia. }
  split; [exact Hn |]. split; [exact Hcond |]. split.
  - intros pid cpus. apply set_proc_affinity_large. rewrite Hn. lia.
  - intros pid res0 Hq. rewrite get_proc_affinity_queried by exact Hq.
    apply (for_int_no_exit _ _ 0 INT_MAX).
    + lia.
    + exact Hcond.
    + left. reflexivity.
    + rewrite INT_MAX_eq. lia.
Qed.

Lemma get_proc_count_failure_witness :
  sysconf_NPROCESSORS_ONLN host_no_sysconf = -1
  /\ get_proc_count host_no_sysconf = 18446744073709551615
  /\ set_proc_affinity host_no_sysconf 7 1 = Undefined
  /\ get_proc_affinity host_no_sysconf 7 0 = Undefined.
Proof.
  split; [reflexivity |].
  destruct (get_proc_count_failure (K := Host.kernel) host_no_sysconf)
    as [Hn [_ [Hset Hget]]]; [reflexivity |].
  split; [exact Hn |]. split; [apply Hset |].
  apply Hget. cbn. lia.
Defined.

(** ** [get_proc_affinity] *)

(** C5. When [sched_getaffinity] fails (returns -1), [get_proc_affinity]
    returns exactly 0, whatever the local [res] held.  The return value
    alone does not tell this from success: there is a host on which the
    query succeeds and the call returns the same value. *)
Theorem get_proc_affinity_failure {K : Kernel} (w : world) (pid res0 : Z) :
  fst (sched_getaffinity w (to_pid_t pid)) = -1 ->
  get_proc_affinity w pid res0 = Done 0
  /\ exists (K' : Kernel) (w' : @world K') (pid' : Z),
       fst (sched_getaffinity w' (to_pid_t pid')) = 0
       /\ get_proc_affinity w' pid' 0 = get_proc_affinity w pid res0.
Proof.
  intros Hfail. rewrite (get_proc_affinity_failed w pid res0 Hfail).
  split; [reflexivity |].
  exists Host.kernel, {| Host.online := 2; Host.procs := [(7, 0)] |}, 7.
  split; reflexivity.
Qed.

Lemma get_proc_affinity_failure_witness :
  fst (sched_getaffinity quad_host (to_pid_t 999999)) = -1
  /\ get_proc_affinity quad_host 999999 12345 = Done 0.
Proof.
  split; [reflexivity |].
  apply (get_proc_affinity_failure (K := Host.kernel) quad_host 999999 12345).
  reflexivity.
Defined.

(** C2. The local [res] is not set to zero before the loop ORs bits into
    it.  Whenever the query succeeds and the call started with a zero
    accumulator returns [r], the call started with leftover content [res0]
    returns [res0 | r].  So there is a 64-bit leftover value for which the
    returned mask has a bit set that the clean run does not set and that
    stands for no member of the reported set below the processor count, and
    two leftover values give two different results on the same host. *)
Theorem get_proc_affinity_accumulator {K : Kernel} (w : world) (pid r : Z) :
  fst (sched_getaffinity w (to_pid_t pid)) <> -1 ->
  get_proc_affinity w pid 0 = Done r ->
  (forall res0, get_proc_affinity w pid res0 = Done (Z.lor res0 r))
  /\ (exists res0 j,
        0 <= res0 < 2 ^ 64 /\ 0 <= j < 64
        /\ Z.testbit (Z.lor res0 r) j = true
        /\ Z.testbit r j = false
        /\ (j <? get_proc_count w)
           && CPU_ISSET j (snd (sched_getaffinity w (to_pid_t pid))) = false)
  /\ (exists res0 res0',
        get_proc_affinity w pid res0 <> get_proc_affinity w pid res0').
Proof.
  intros Hq Hclean.
  pose proof Hclean as Hloop.
  rewrite get_proc_affinity_queried in Hloop by exact Hq.
  assert (Hall : forall res0, get_proc_affinity w pid res0 = Done (Z.lor res0 r)).
  { intros res0. rewrite get_proc_affinity_queried by exact Hq.
    rewrite <- (Z.lor_0_r res0) at 1.
    rewrite get_proc_affinity_loop_lor, Hloop. reflexivity. }
  assert (Hhigh : forall k, 31 <= k -> Z.testbit r k = false).
  { apply (for_int_preserves (below_proc_count w)
             (get_proc_affinity_body (snd (sched_getaffinity w (to_pid_t pid))))
             (fun s => forall k, 31 <= k -> Z.testbit s k = false)
             (get_proc_affinity_body_high _) 0 0 r Hloop).
    intros k _. apply Z.bits_0. }
  assert (Hset : Z.testbit (Z.lor (2 ^ 63) r) 63 = true).
  { rewrite Z.lor_spec, testbit_pow2 by lia. reflexivity. }
  split; [exact Hall |]. split.
  - exists (2 ^ 63), 63. split; [lia |]. split; [lia |].
    split; [exact Hset |]. split; [apply Hhigh; lia |].
    destruct (Z.ltb_spec 63 (get_proc_count w)) as [Hlt | Hge]; [| reflexivity].
    destruct (CPU_ISSET 63 (snd (sched_getaffinity w (to_pid_t pid)))) eqn:Hin;
      [| reflexivity].
    rewrite (get_proc_affinity_loop_large w _ 63 0) in Hloop;
      [discriminate | rewrite INT_MAX_eq; lia | exact Hlt | exact Hin].
  - exists (2 ^ 63), 0. rewrite (Hall (2 ^ 63)), (Hall 0). intros Heq.
    apply Done_inj in Heq. rewrite Z.lor_0_l in Heq.
    rewrite Heq, Hhigh in Hset by lia. discriminate.
Qed.

Lemma get_proc_affinity_accumulator_witness :
  fst (sched_getaffinity dual_host (to_pid_t 7)) <> -1
  /\ get_proc_affinity dual_host 7 0 = Done 1
  /\ get_proc_affinity dual_host 7 2 = Done 3.
Proof.
  assert (Hq : fst (sched_getaffinity dual_host (to_pid_t 7)) <> -1) by (cbn; lia).
  assert (Hclean : get_proc_affinity dual_host 7 0 = Done 1) by reflexivity.
  split; [exact Hq |]. split; [exact Hclean |].
  apply (get_proc_affinity_accumulator (K := Host.kernel) dual_host 7 1 Hq Hclean).
Defined.

(** C1 (the code departs from it).  On a host with two processors where
    process 7 is pinned to CPU 0, the query succeeds and reports a set
    without CPU 1; started with leftover content 2 in [res], the call
    returns 3: bit 1 is set although CPU 1 is not in the reported set. *)
Theorem get_proc_affinity_leftover_bits :
  fst (sched_getaffinity dual_host (to_pid_t 7)) = 0
  /\ get_proc_count dual_host = 2
  /\ CPU_ISSET 1 (snd (sched_getaffinity dual_host (to_pid_t 7))) = false
  /\ get_proc_affinity dual_host 7 2 = Done 3
  /\ Z.testbit 3 1 = true.
Proof. repeat split. Qed.

(** ** [set_proc_affinity] *)




(** C7 (the code departs from it).  On a host with 32 processors the masks
    0 and 2^40 agree on every bit below the processor count, yet for
    neither does the loop hand a set to the kernel: at [i = 31] it
    evaluates [1 << 31] in [int], which the language leaves undefined. *)
Theorem set_proc_affinity_high_bits :
  get_proc_count host_32 = 32
  /\ Z.land 0 (Z.ones 32) = Z.land (2 ^ 40) (Z.ones 32)
  /\ requested_cpu_set host_32 0 = Undefined
  /\ requested_cpu_set host_32 (2 ^ 40) = Undefined
  /\ set_proc_affinity host_32 7 (2 ^ 40) = Undefined.
Proof. repeat split. Qed.

(** C3 (the code departs from it).  The constant [1] in [1 << i] is an
    [int]: the shift gives 2^i up to [i = 30] only.  On a host with 64
    processors where process 7 is pinned to CPU 32, [get_proc_affinity]
    evaluates [1 << 32] and [set_proc_affinity] evaluates [1 << 31], both
    undefined, instead of treating bit 32 of the mask as CPU 32. *)
Theorem shift_past_int_width :
  shl_int 1 30 = Done (2 ^ 30)
  /\ shl_int 1 31 = Undefined
  /\ shl_int 1 32 = Undefined
  /\ get_proc_count host_64 = 64
  /\ CPU_ISSET 32 (snd (sched_getaffinity host_64 (to_pid_t 7))) = true
  /\ get_proc_affinity host_64 7 0 = Undefined
  /\ set_proc_affinity host_64 7 (2 ^ 32) = Undefined.
Proof. repeat split. Qed.

(** ** Setting, then reading back *)

(** C4. Round trip, on a kernel that remembers a successful request and is
    not disturbed in between ([kernel_keeps_affinity]).  If
    [set_proc_affinity] returns status 0, then for every core index [i]
    below the processor count whose bit is set in the mask, a following
    [get_proc_affinity] on the same pid returns a mask with bit [i] set,
    whatever the local [res] held. *)
Theorem affinity_round_trip {K : Kernel} (w w' : world) (pid cpus i res0 : Z) :
  kernel_keeps_affinity K ->
  set_proc_affinity w pid cpus = Done (0, w') ->
  0 <= i < get_proc_count w ->
  Z.testbit cpus i = true ->
  exists r, get_proc_affinity w' pid res0 = Done r /\ Z.testbit r i = true.
Proof.
  intros Hlaw Hset Hi Hbit.
  apply set_proc_affinity_done in Hset. destruct Hset as [Hn Hk].
  destruct (Hlaw w w' _ _ Hk) as [Hcnt [Hq Hmem]].
  assert (Hn' : get_proc_count w' = get_proc_count w).
  { unfold get_proc_count. rewrite Hcnt. reflexivity. }
  assert (Hin : Z.testbit (snd (sched_getaffinity w' (to_pid_t pid))) i = true).
  { specialize (Hmem i). unfold CPU_ISSET in Hmem.
    rewrite cpu_in_range_small in Hmem by lia. cbn [andb] in Hmem.
    apply Hmem. rewrite Z.land_spec, Hbit, Z.testbit_ones_nonneg by lia.
    apply Z.ltb_lt. lia. }
  rewrite get_proc_affinity_small; [| rewrite Hq; discriminate | lia].
  eexists. split; [reflexivity |].
  rewrite Z.lor_spec, Z.land_spec, Hin, Z.testbit_ones_nonneg, Hn' by lia.
  replace (i <? get_proc_count w) with true by (symmetry; apply Z.ltb_lt; lia).
  apply orb_true_r.
Qed.

Lemma affinity_round_trip_witness :
  kernel_keeps_affinity Host.kernel
  /\ set_proc_affinity quad_host 7 5
     = Done (0, {| Host.online := 4; Host.procs := [(7, 5)] |})
  /\ 0 <= 2 < get_proc_count quad_host
  /\ Z.testbit 5 2 = true
  /\ exists r,
       get_proc_affinity {| Host.online := 4; Host.procs := [(7, 5)] |} 7 0 = Done r
       /\ Z.testbit r 2 = true.
Proof.
  assert (Hset : set_proc_affinity quad_host 7 5
                 = Done (0, {| Host.online := 4; Host.procs := [(7, 5)] |}))
    by reflexivity.
  assert (Hi : 0 <= 2 < get_proc_count quad_host) by (cbn; lia).
  split; [exact host_keeps_affinity |]. split; [exact Hset |].
  split; [exact Hi |]. split; [reflexivity |].
  exact (affinity_round_trip (K := Host.kernel) quad_host _ 7 5 2 0
           host_keeps_affinity Hset Hi eq_refl).
Defined.

(** C9. Idempotence, on a kernel for which repeating a request changes
    nothing ([kernel_set_idempotent]).  When [set_proc_affinity] has
    returned, a second call with the same pid and mask returns as well, and
    leaves what the kernel reports as the affinity of that process, and
    what [get_proc_affinity] returns for it, as the first call left them. *)
Theorem set_proc_affinity_idempotent {K : Kernel} (w w1 : world)
    (pid cpus status : Z) :
  kernel_set_idempotent K ->
  set_proc_affinity w pid cpus = Done (status, w1) ->
  exists status2 w2,
    set_proc_affinity w1 pid cpus = Done (status2, w2)
    /\ sched_getaffinity w2 (to_pid_t pid) = sched_getaffinity w1 (to_pid_t pid)
    /\ forall res0, get_proc_affinity w2 pid res0 = get_proc_affinity w1 pid res0.
Proof.
  intros Hlaw Hset.
  apply set_proc_affinity_done in Hset. destruct Hset as [Hn Hk].
  set (s := Z.land cpus (Z.ones (get_proc_count w))) in *.
  pose proof (Hlaw w (to_pid_t pid) s) as H1. rewrite Hk in H1. cbn in H1.
  destruct H1 as [Hcnt1 Hobs].
  pose proof (Hlaw w1 (to_pid_t pid) s) as H2. cbn in H2.
  destruct H2 as [Hcnt2 _].
  assert (Hn1 : get_proc_count w1 = get_proc_count w).
  { unfold get_proc_count. rewrite Hcnt1. reflexivity. }
  destruct (sched_setaffinity w1 (to_pid_t pid) s) as [status2 w2] eqn:Hk2.
  cbn [snd] in *.
  exists status2, w2. split; [| split].
  - rewrite set_proc_affinity_small by (rewrite Hn1; exact Hn).
    rewrite Hn1. fold s. rewrite Hk2. reflexivity.
  - exact Hobs.
  - intros res0. unfold get_proc_affinity, below_proc_count, get_proc_count.
    rewrite Hobs, Hcnt2. reflexivity.
Qed.

Lemma set_proc_affinity_idempotent_witness :
  kernel_set_idempotent Host.kernel
  /\ set_proc_affinity quad_host 7 5
     = Done (0, {| Host.online := 4; Host.procs := [(7, 5)] |})
  /\ exists status2 w2,
       set_proc_affinity {| Host.online := 4; Host.procs := [(7, 5)] |} 7 5
       = Done (status2, w2)
       /\ sched_getaffinity w2 (to_pid_t 7)
          = sched_getaffinity {| Host.online := 4; Host.procs := [(7, 5)] |}
              (to_pid_t 7)
       /\ forall res0,
            get_proc_affinity w2 7 res0
            = get_proc_affinity {| Host.online := 4; Host.procs := [(7, 5)] |} 7 res0.
Proof.
  assert (Hset : set_proc_affinity quad_host 7 5
                 = Done (0, {| Host.online := 4; Host.procs := [(7, 5)] |}))
    by reflexivity.
  split; [exact host_set_idempotent |]. split; [exact Hset |].
  exact (set_proc_affinity_idempotent (K := Host.kernel) quad_host _ 7 5 0
           host_set_idempotent Hset).
Defined.

(** The scenario of the specification: four processors, mask 0b0101. *)
Example scenario_four_processors :
  get_proc_count quad_host = 4
  /\ set_proc_affinity quad_host 7 5
     = Done (0, {| Host.online := 4; Host.procs := [(7, 5)] |})
  /\ get_proc_affinity {| Host.online := 4; Host.procs := [(7, 5)] |} 7 0 = Done 5.
Proof. repeat split. Qed.

(** * Further properties of the shim *)

(** ** When [get_proc_affinity] is defined, and what it returns *)

(** A loop of [get_proc_affinity] that ends has met no member of the CPU
    set from index 31 on, and its counter has not run past [INT_MAX]. *)
Lemma get_proc_affinity_loop_done {K : Kernel} (w : world)
    (cpu_set : cpu_set_t) (res0 r : Z) :
  for_int (below_proc_count w) (get_proc_affinity_body cpu_set) 0 res0 = Done r ->
  get_proc_count w <= INT_MAX
  /\ forall m, 31 <= m < get_proc_count w -> CPU_ISSET m cpu_set = false.
Proof.
  intros H. split.
  - destruct (Z_le_gt_dec (get_proc_count w) INT_MAX) as [Hle | Hgt]; [exact Hle |].
    rewrite (for_int_no_exit (below_proc_count w)
               (get_proc_affinity_body cpu_set) 0 INT_MAX) in H.
    + discriminate.
    + lia.
    + intros j Hj. apply below_proc_count_true; lia.
    + left. reflexivity.
    + rewrite INT_MAX_eq. lia.
  - intros m Hm. destruct (CPU_ISSET m cpu_set) eqn:Hin; [| reflexivity].
    assert (Hm' : m < CPU_SETSIZE).
    { unfold CPU_ISSET, cpu_in_range in Hin.
      apply andb_true_iff in Hin. destruct Hin as [Hin _].
      apply andb_true_iff in Hin. destruct Hin as [_ Hin].
      apply Z.ltb_lt in Hin. exact Hin. }
    unfold CPU_SETSIZE in Hm'.
    rewrite (get_proc_affinity_loop_large w cpu_set m res0) in H.
    + discriminate.
    + rewrite INT_MAX_eq. lia.
    + lia.
    + exact Hin.
Qed.

(** Conversely, under these two conditions the loop ends, and has OR-ed
    into the accumulator the members of the set below the processor count
    and below 31. *)
Lemma get_proc_affinity_loop_value {K : Kernel} (w : world)
    (cpu_set : cpu_set_t) (res0 : Z) :
  get_proc_count w <= INT_MAX ->
  (forall m, 31 <= m < get_proc_count w -> CPU_ISSET m cpu_set = false) ->
  for_int (below_proc_count w) (get_proc_affinity_body cpu_set) 0 res0
  = Done (Z.lor res0
            (Z.land cpu_set (Z.ones (Z.min (get_proc_count w) 31)))).
Proof.
  intros Hn Hhigh. pose proof (get_proc_count_range w) as Hr.
  destruct (for_int_advance (below_proc_count w) (get_proc_affinity_body cpu_set)
    (fun i s => 0 <= i
                /\ s = Z.lor res0 (Z.land cpu_set (Z.ones (Z.min i 31))))
    (get_proc_count w) Hn)
    with (i := 0) (s := res0) as [r [[_ Hr'] Heq]].
  - intros j s Hj [Hj0 Hs]. split.
    + apply below_proc_count_true; lia.
    + destruct (Z_lt_ge_dec j 31) as [Hlow | Hhi].
      * rewrite get_proc_affinity_body_small by lia.
        eexists. split; [reflexivity |]. split; [lia |]. subst s.
        rewrite (Z.min_l j 31), (Z.min_l (j + 1) 31) by lia.
        rewrite land_ones_succ by exact Hj0.
        destruct (Z.testbit cpu_set j); [symmetry; apply Z.lor_assoc | reflexivity].
      * unfold get_proc_affinity_body. rewrite Hhigh by lia.
        eexists. split; [reflexivity |]. split; [lia |].
        rewrite (Z.min_r (j + 1) 31) by lia.
        rewrite (Z.min_r j 31) in Hs by lia. exact Hs.
  - lia.
  - split; [lia |]. rewrite Z.min_l by lia. cbn.
    rewrite Z.land_0_r, Z.lor_0_r. reflexivity.
  - rewrite Heq, for_int_exit.
    + rewrite Hr'. reflexivity.
    + apply below_proc_count_false; lia.
Qed.

(** X1. After a successful affinity query, [get_proc_affinity] has a
    defined result exactly when the processor count is at most [INT_MAX]
    and the reported set has no member at an index from 31 up to the
    processor count. *)
Theorem get_proc_affinity_defined {K : Kernel} (w : world) (pid res0 : Z) :
  fst (sched_getaffinity w (to_pid_t pid)) <> -1 ->
  (exists r, get_proc_affinity w pid res0 = Done r)
  <-> get_proc_count w <= INT_MAX
      /\ forall m, 31 <= m < get_proc_count w ->
           CPU_ISSET m (snd (sched_getaffinity w (to_pid_t pid))) = false.
Proof.
  intros Hq. rewrite get_proc_affinity_queried by exact Hq. split.
  - intros [r Hr]. apply (get_proc_affinity_loop_done w _ res0 r Hr).
  - intros [Hn Hhigh]. eexists.
    apply get_proc_affinity_loop_value; [exact Hn | exact Hhigh].
Qed.

Lemma get_proc_affinity_defined_witness :
  fst (sched_getaffinity host_64_low (to_pid_t 7)) <> -1
  /\ get_proc_count host_64_low <= INT_MAX
  /\ forall m, 31 <= m < get_proc_count host_64_low ->
       CPU_ISSET m (snd (sched_getaffinity host_64_low (to_pid_t 7))) = false.
Proof.
  assert (Hq : fst (sched_getaffinity host_64_low (to_pid_t 7)) <> -1)
    by (cbn; lia).
  split; [exact Hq |].
  apply (proj1 (get_proc_affinity_defined (K := Host.kernel) host_64_low 7 0 Hq)).
  exists 5. reflexivity.
Defined.

(** X2. Whenever [get_proc_affinity] returns after a successful query, it
    returns the leftover content of [res] OR-ed with the bits of the
    reported set below both the processor count and 31. *)
Theorem get_proc_affinity_value {K : Kernel} (w : world) (pid res0 r : Z) :
  fst (sched_getaffinity w (to_pid_t pid)) <> -1 ->
  get_proc_affinity w pid res0 = Done r ->
  r = Z.lor res0
        (Z.land (snd (sched_getaffinity w (to_pid_t pid)))
                (Z.ones (Z.min (get_proc_count w) 31))).
Proof.
  intros Hq Hr. rewrite get_proc_affinity_queried in Hr by exact Hq.
  destruct (get_proc_affinity_loop_done w _ res0 r Hr) as [Hn Hhigh].
  rewrite (get_proc_affinity_loop_value w _ res0 Hn Hhigh) in Hr.
  apply Done_inj in Hr. symmetry. exact Hr.
Qed.

Lemma get_proc_affinity_value_witness :
  fst (sched_getaffinity host_64_low (to_pid_t 7)) <> -1
  /\ get_proc_affinity host_64_low 7 8 = Done 13
  /\ 13 = Z.lor 8 (Z.land 5 (Z.ones (Z.min (get_proc_count host_64_low) 31))).
Proof.
  assert (Hq : fst (sched_getaffinity host_64_low (to_pid_t 7)) <> -1)
    by (cbn; lia).
  assert (Hr : get_proc_affinity host_64_low 7 8 = Done 13) by reflexivity.
  split; [exact Hq |]. split; [exact Hr |].
  exact (get_proc_affinity_value (K := Host.kernel) host_64_low 7 8 13 Hq Hr).
Defined.

(** X3. Bits 31 and above of the result are never touched: after a
    successful query they are those of the leftover content of [res].  In
    particular a run with a clean accumulator returns a value below 2^31:
    CPUs 31 to 63 are never reported. *)
Theorem get_proc_affinity_high_bits {K : Kernel} (w : world) (pid res0 r : Z) :
  fst (sched_getaffinity w (to_pid_t pid)) <> -1 ->
  get_proc_affinity w pid res0 = Done r ->
  (forall k, 31 <= k -> Z.testbit r k = Z.testbit res0 k)
  /\ (res0 = 0 -> 0 <= r < 2 ^ 31).
Proof.
  intros Hq Hr. rewrite get_proc_affinity_queried in Hr by exact Hq.
  destruct (get_proc_affinity_loop_done w _ res0 r Hr) as [Hn Hhigh].
  rewrite (get_proc_affinity_loop_value w _ res0 Hn Hhigh) in Hr.
  apply Done_inj in Hr. subst r.
  pose proof (get_proc_count_range w) as Hc.
  set (n := Z.min (get_proc_count w) 31).
  assert (Hn31 : 0 <= n <= 31) by (unfold n; lia).
  split.
  - intros k Hk.
    rewrite Z.lor_spec, Z.land_spec, Z.testbit_ones_nonneg by lia.
    replace (k <? n) with false by (symmetry; apply Z.ltb_ge; lia).
    rewrite andb_false_r, orb_false_r. reflexivity.
  - intros ->. rewrite Z.lor_0_l, Z.land_ones by lia.
    pose proof (Z.mod_pos_bound (snd (sched_getaffinity w (to_pid_t pid))) (2 ^ n))
      as Hb.
    assert (Hp : 0 < 2 ^ n) by (apply Z.pow_pos_nonneg; lia).
    assert (Hp' : 2 ^ n <= 2 ^ 31) by (apply Z.pow_le_mono_r; lia).
    specialize (Hb Hp). lia.
Qed.

Lemma get_proc_affinity_high_bits_witness :
  fst (sched_getaffinity host_64_low (to_pid_t 7)) <> -1
  /\ get_proc_affinity host_64_low 7 0 = Done 5
  /\ 0 <= 5 < 2 ^ 31.
Proof.
  assert (Hq : fst (sched_getaffinity host_64_low (to_pid_t 7)) <> -1)
    by (cbn; lia).
  assert (Hr : get_proc_affinity host_64_low 7 0 = Done 5) by reflexivity.
  split; [exact Hq |]. split; [exact Hr |].
  exact (proj2 (get_proc_affinity_high_bits (K := Host.kernel)
                  host_64_low 7 0 5 Hq Hr) eq_refl).
Defined.

(** X4. With at most 31 processors and a clean accumulator, a successful
    query gives the mask the function is meant to give: bit [i] of the
    result is set exactly when [i] is below the processor count and CPU [i]
    is a member of the reported set. *)
Theorem get_proc_affinity_clean {K : Kernel} (w : world) (pid : Z) :
  fst (sched_getaffinity w (to_pid_t pid)) <> -1 ->
  get_proc_count w <= 31 ->
  exists r,
    get_proc_affinity w pid 0 = Done r
    /\ forall i, 0 <= i ->
         Z.testbit r i
         = (i <? get_proc_count w)
           && CPU_ISSET i (snd (sched_getaffinity w (to_pid_t pid))).
Proof.
  intros Hq Hn. rewrite get_proc_affinity_small by assumption.
  eexists. split; [reflexivity |]. intros i Hi.
  pose proof (get_proc_count_range w) as Hc.
  rewrite Z.lor_0_l, Z.land_spec, Z.testbit_ones_nonneg by lia.
  unfold CPU_ISSET.
  destruct (Z.ltb_spec i (get_proc_count w)) as [Hlt | Hge].
  - rewrite cpu_in_range_small by lia. rewrite andb_true_r. reflexivity.
  - apply andb_false_r.
Qed.

Lemma get_proc_affinity_clean_witness :
  fst (sched_getaffinity quad_host (to_pid_t 7)) <> -1
  /\ get_proc_count quad_host <= 31
  /\ exists r,
       get_proc_affinity quad_host 7 0 = Done r
       /\ forall i, 0 <= i ->
            Z.testbit r i
            = (i <? get_proc_count quad_host)
              && CPU_ISSET i (snd (sched_getaffinity quad_host (to_pid_t 7))).
Proof.
  assert (Hq : fst (sched_getaffinity quad_host (to_pid_t 7)) <> -1)
    by (cbn; lia).
  assert (Hn : get_proc_count quad_host <= 31) by (cbn; lia).
  split; [exact Hq |]. split; [exact Hn |].
  exact (get_proc_affinity_clean (K := Host.kernel) quad_host 7 Hq Hn).
Defined.

(** ** The set that [set_proc_affinity] requests *)

(** X5. With at most 31 processors, the set handed to the kernel has CPU
    [j] as a member exactly when [j] is a core index below the processor
    count and bit [j] of the mask is set. *)
Theorem requested_cpu_set_members {K : Kernel} (w : world) (cpus : Z) :
  get_proc_count w <= 31 ->
  exists cpu_set,
    requested_cpu_set w cpus = Done cpu_set
    /\ forall j, CPU_ISSET j cpu_set
                 = (0 <=? j) && (j <? get_proc_count w) && Z.testbit cpus j.
Proof.
  intros Hn. rewrite requested_cpu_set_small by exact Hn.
  eexists. split; [reflexivity |]. intros j.
  pose proof (get_proc_count_range w) as Hc.
  unfold CPU_ISSET, cpu_in_range, CPU_SETSIZE.
  destruct (Z.leb_spec 0 j) as [Hj | Hj]; [| reflexivity]. cbn [andb].
  rewrite Z.land_spec, Z.testbit_ones_nonneg by lia.
  destruct (Z.ltb_spec j (get_proc_count w)) as [Hlt | Hge].
  - replace (j <? 1024) with true by (symmetry; apply Z.ltb_lt; lia).
    cbn [andb]. apply andb_true_r.
  - rewrite andb_false_r. apply andb_false_r.
Qed.

Lemma requested_cpu_set_members_witness :
  get_proc_count quad_host <= 31
  /\ exists cpu_set,
       requested_cpu_set quad_host 21 = Done cpu_set
       /\ forall j, CPU_ISSET j cpu_set
                    = (0 <=? j) && (j <? get_proc_count quad_host)
                      && Z.testbit 21 j.
Proof.
  assert (Hn : get_proc_count quad_host <= 31) by (cbn; lia).
  split; [exact Hn |].
  exact (requested_cpu_set_members (K := Host.kernel) quad_host 21 Hn).
Defined.

(** X6. With at most 31 processors, mask bits at or above the processor
    count are ignored: two masks that agree on every bit below the count
    make [set_proc_affinity] do the same kernel call, with the same
    result. *)
Theorem set_proc_affinity_ignores_high_bits {K : Kernel} (w : world)
    (pid cpus cpus' : Z) :
  get_proc_count w <= 31 ->
  (forall i, 0 <= i < get_proc_count w -> Z.testbit cpus i = Z.testbit cpus' i) ->
  set_proc_affinity w pid cpus = set_proc_affinity w pid cpus'.
Proof.
  intros Hn Hagree. rewrite !set_proc_affinity_small by exact Hn.
  pose proof (get_proc_count_range w) as Hc.
  replace (Z.land cpus' (Z.ones (get_proc_count w)))
    with (Z.land cpus (Z.ones (get_proc_count w))); [reflexivity |].
  apply Z.bits_inj'. intros k Hk.
  rewrite !Z.land_spec, Z.testbit_ones_nonneg by lia.
  destruct (Z.ltb_spec k (get_proc_count w)) as [Hlt | Hge].
  - rewrite Hagree by lia. reflexivity.
  - rewrite !andb_false_r. reflexivity.
Qed.

Lemma set_proc_affinity_ignores_high_bits_witness :
  get_proc_count quad_host <= 31
  /\ (forall i, 0 <= i < get_proc_count quad_host ->
        Z.testbit 5 i = Z.testbit 21 i)
  /\ set_proc_affinity quad_host 7 5 = set_proc_affinity quad_host 7 21.
Proof.
  assert (Hn : get_proc_count quad_host <= 31) by (cbn; lia).
  assert (Hagree : forall i, 0 <= i < get_proc_count quad_host ->
                     Z.testbit 5 i = Z.testbit 21 i).
  { intros i Hi. cbn in Hi.
    assert (Hcases : i = 0 \/ i = 1 \/ i = 2 \/ i = 3) by lia.
    destruct Hcases as [-> | [-> | [-> | ->]]]; reflexivity. }
  split; [exact Hn |]. split; [exact Hagree |].
  exact (set_proc_affinity_ignores_high_bits (K := Host.kernel)
           quad_host 7 5 21 Hn Hagree).
Defined.

(** X7. A mask with no bit set below the processor count (the zero mask
    for one) is not refused by the shim: with at most 31 processors the
    kernel is asked for the empty set, and its answer is returned. *)
Theorem set_proc_affinity_empty_request {K : Kernel} (w : world) (pid cpus : Z) :
  get_proc_count w <= 31 ->
  (forall i, 0 <= i < get_proc_count w -> Z.testbit cpus i = false) ->
  set_proc_affinity w pid cpus
  = Done (sched_setaffinity w (to_pid_t pid) CPU_ZERO).
Proof.
  intros Hn Hnone. rewrite set_proc_affinity_small by exact Hn.
  pose proof (get_proc_count_range w) as Hc.
  replace (Z.land cpus (Z.ones (get_proc_count w))) with CPU_ZERO; [reflexivity |].
  unfold CPU_ZERO. apply Z.bits_inj'. intros k Hk.
  rewrite Z.bits_0, Z.land_spec, Z.testbit_ones_nonneg by lia.
  destruct (Z.ltb_spec k (get_proc_count w)) as [Hlt | Hge].
  - rewrite Hnone by lia. reflexivity.
  - rewrite andb_false_r. reflexivity.
Qed.

Lemma set_proc_affinity_empty_request_witness :
  get_proc_count quad_host <= 31
  /\ (forall i, 0 <= i < get_proc_count quad_host -> Z.testbit 0 i = false)
  /\ set_proc_affinity quad_host 7 0
     = Done (0, {| Host.online := 4; Host.procs := [(7, 0)] |}).
Proof.
  assert (Hn : get_proc_count quad_host <= 31) by (cbn; lia).
  assert (Hnone : forall i, 0 <= i < get_proc_count quad_host ->
                    Z.testbit 0 i = false)
    by (intros i _; apply Z.bits_0).
  split; [exact Hn |]. split; [exact Hnone |].
  exact (set_proc_affinity_empty_request (K := Host.kernel)
           quad_host 7 0 Hn Hnone).
Defined.

(** ** The pid argument *)

Lemma to_pid_t_wraps (pid k : Z) : to_pid_t (pid + k * 2 ^ 32) = to_pid_t pid.
Proof.
  unfold to_pid_t.
  replace (pid + k * 2 ^ 32 + 2 ^ 31) with (pid + 2 ^ 31 + k * 2 ^ 32) by ring.
  rewrite Z.mod_add; [reflexivity |]. apply Z.pow_nonzero; lia.
Qed.

(** X8. The 64-bit pid is narrowed to the 32-bit [pid_t] of the kernel
    calls: two pids that differ by a multiple of 2^32 are the same process
    to both functions. *)
Theorem pid_taken_modulo_2_32 {K : Kernel} (w : world) (pid k res0 cpus : Z) :
  get_proc_affinity w (pid + k * 2 ^ 32) res0 = get_proc_affinity w pid res0
  /\ set_proc_affinity w (pid + k * 2 ^ 32) cpus = set_proc_affinity w pid cpus.
Proof.
  unfold get_proc_affinity, set_proc_affinity.
  rewrite to_pid_t_wraps. split; reflexivity.
Qed.

(** ** Setting, then reading back, exactly *)

Lemma host_reports_request : kernel_reports_request Host.kernel.
Proof.
  intros w w' p s. cbn. unfold Host.setaffinity, Host.getaffinity.
  destruct (Host.lookup p (Host.procs w)) as [s0 |] eqn:Hl; [| discriminate].
  intros H. apply (f_equal snd) in H. cbn in H. subst w'. cbn.
  rewrite host_lookup_update, Hl. split; reflexivity.
Qed.

(** X9. On a kernel that reports back exactly the set it was asked for
    ([kernel_reports_request]): after [set_proc_affinity] has returned 0, a
    run of [get_proc_affinity] on the same pid with a clean accumulator
    returns the mask cut down to the bits below the processor count, hence
    the mask itself when it has no other bits. *)
Theorem affinity_exact_round_trip {K : Kernel} (w w' : world) (pid cpus : Z) :
  kernel_reports_request K ->
  set_proc_affinity w pid cpus = Done (0, w') ->
  get_proc_affinity w' pid 0
  = Done (Z.land cpus (Z.ones (get_proc_count w)))
  /\ (0 <= cpus < 2 ^ get_proc_count w ->
      get_proc_affinity w' pid 0 = Done cpus).
Proof.
  intros Hlaw Hset.
  apply set_proc_affinity_done in Hset. destruct Hset as [Hn Hk].
  destruct (Hlaw w w' _ _ Hk) as [Hcnt Hget].
  pose proof (get_proc_count_range w) as Hc.
  assert (Hn' : get_proc_count w' = get_proc_count w).
  { unfold get_proc_count. rewrite Hcnt. reflexivity. }
  assert (Hval : get_proc_affinity w' pid 0
                 = Done (Z.land cpus (Z.ones (get_proc_count w)))).
  { rewrite get_proc_affinity_small;
      [| rewrite Hget; cbn [fst]; discriminate | lia].
    rewrite Hget, Hn'. cbn [snd].
    rewrite Z.lor_0_l, <- Z.land_assoc, Z.land_diag. reflexivity. }
  split; [exact Hval |].
  intros Hsmall. rewrite Hval, Z.land_ones by lia.
  rewrite Z.mod_small by exact Hsmall. reflexivity.
Qed.

Lemma affinity_exact_round_trip_witness :
  kernel_reports_request Host.kernel
  /\ set_proc_affinity quad_host 7 5
     = Done (0, {| Host.online := 4; Host.procs := [(7, 5)] |})
  /\ 0 <= 5 < 2 ^ get_proc_count quad_host
  /\ get_proc_affinity {| Host.online := 4; Host.procs := [(7, 5)] |} 7 0 = Done 5.
Proof.
  assert (Hset : set_proc_affinity quad_host 7 5
                 = Done (0, {| Host.online := 4; Host.procs := [(7, 5)] |}))
    by reflexivity.
  assert (Hsmall : 0 <= 5 < 2 ^ get_proc_count quad_host) by (cbn; lia).
  split; [exact host_reports_request |]. split; [exact Hset |].
  split; [exact Hsmall |].
  exact (proj2 (affinity_exact_round_trip (K := Host.kernel) quad_host _ 7 5
                  host_reports_request Hset) Hsmall).
Defined.

(** ** When [set_proc_affinity] is defined *)

(** X10. Whether [set_proc_affinity] is defined depends on the host alone,
    not on the pid or the mask: the call is undefined exactly when there
    are 32 processors or more, since the loop then evaluates [1 << 31]
    whatever the mask holds. *)
Theorem set_proc_affinity_undefined {K : Kernel} (w : world) (pid cpus : Z) :
  set_proc_affinity w pid cpus = Undefined <-> 32 <= get_proc_count w.
Proof.
  split.
  - intros H. destruct (Z_le_gt_dec (get_proc_count w) 31) as [Hn | Hn]; [| lia].
    rewrite set_proc_affinity_small in H by exact Hn. discriminate.
  - apply set_proc_affinity_large.
Qed.
